(** * ResponseAreaTub and initialiseTub

    A shallow embedding of [src/types/response-area-tub.ts]: the abstract
    class [ResponseAreaTub] (schema extraction, the initialisation paths,
    the four serialisers) and the dispatcher [initialiseTub].

    The repository holds a second copy of the class whose fields are called
    [config] and [answer] instead of [_config] and [_answer] behind getters
    and whose [answerSchema] is optional in the type; the method bodies are
    the same line for line, so one embedding serves both.  [answerSchema] is
    kept optional here because both copies test it at run time.

    The methods are the ones the base class assigns; a concrete variant
    supplies [responseType], the schemas and the flags.  Payloads are plain
    data objects, so [k in o] and [o.k] see own properties only. *)

From stdpp Require Import gmap strings.
From Stdlib Require Import ZArith.

Set Warnings "-register-all".
Open Scope string_scope.

(** ** JavaScript values *)

(** What a field typed [any], [unknown] or [JsonNestedSchema] can hold.
    The class never looks inside a number, so integers stand for them. *)
Inductive JsValue : Type :=
  | JUndefined
  | JNull
  | JBool (b : bool)
  | JNum (n : Z)
  | JStr (s : string)
  | JArr (items : list JsValue)
  | JObj (props : gmap string JsValue).

(** An object literal [{ k1: v1, k2: v2 }]. *)
Definition object (fields : list (string * JsValue)) : gmap string JsValue :=
  list_to_map fields.

(** [k in o]. *)
Definition has_property (k : string) (o : gmap string JsValue) : bool :=
  bool_decide (is_Some (o !! k)).

(** [o.k]: reading a property that is not there gives [undefined]. *)
Definition get_property (k : string) (o : gmap string JsValue) : JsValue :=
  default JUndefined (o !! k).

(** [v === 'literal']. *)
Definition strict_equals_string (v : JsValue) (literal : string) : bool :=
  match v with
  | JStr s => bool_decide (s = literal)
  | _ => false
  end.

(** [v === undefined]. *)
Definition is_undefined (v : JsValue) : bool :=
  match v with
  | JUndefined => true
  | _ => false
  end.

(** A field typed [string | undefined], as a value. *)
Definition of_optional_string (s : option string) : JsValue :=
  match s with
  | Some s => JStr s
  | None => JUndefined
  end.

(** [!s] for [s : string | undefined]: [undefined] and [''] are falsy. *)
Definition not_string (s : option string) : bool :=
  match s with
  | None => true
  | Some s => bool_decide (s = "")
  end.

(** [new Error(message)]. *)
Inductive JsError : Type :=
  | Error (message : string).

(** ** Validation schemas *)

(** The result of [safeParse]: [{ success: true, data }] or
    [{ success: false, error }]; the class reads [success] and [data]
    only. *)
Inductive SafeParseReturn : Type :=
  | ParseSuccess (data : JsValue)
  | ParseFailure.

(** A [ZodSchema], taken as its [safeParse] operation, which never throws. *)
Record ZodSchema : Type := { safeParse : JsValue → SafeParseReturn }.

(** ** The tub *)

Record ResponseAreaTub : Type := {
  responseType : option string;
  canToggleLatexInStats : bool;
  delegatePreResponseText : bool;
  delegatePostResponseText : bool;
  delegateLivePreview : bool;
  delegateFeedback : bool;
  delegateCheck : bool;
  delegateErrorMessage : bool;
  displayInFlexContainer : bool;
  displayWideInput : bool;
  displayAlwaysInColumn : bool;
  configSchema : option ZodSchema;
  _config : JsValue;
  answerSchema : option ZodSchema;
  _answer : JsValue;
}.

(** The getters [get config()] and [get answer()]. *)
Definition config (this : ResponseAreaTub) : JsValue := _config this.
Definition answer (this : ResponseAreaTub) : JsValue := _answer this.

(** [this._config = data]. *)
Definition set_config (data : JsValue) (this : ResponseAreaTub) : ResponseAreaTub :=
  {| responseType := responseType this;
     canToggleLatexInStats := canToggleLatexInStats this;
     delegatePreResponseText := delegatePreResponseText this;
     delegatePostResponseText := delegatePostResponseText this;
     delegateLivePreview := delegateLivePreview this;
     delegateFeedback := delegateFeedback this;
     delegateCheck := delegateCheck this;
     delegateErrorMessage := delegateErrorMessage this;
     displayInFlexContainer := displayInFlexContainer this;
     displayWideInput := displayWideInput this;
     displayAlwaysInColumn := displayAlwaysInColumn this;
     configSchema := configSchema this;
     _config := data;
     answerSchema := answerSchema this;
     _answer := _answer this |}.

(** [this._answer = data]. *)
Definition set_answer (data : JsValue) (this : ResponseAreaTub) : ResponseAreaTub :=
  {| responseType := responseType this;
     canToggleLatexInStats := canToggleLatexInStats this;
     delegatePreResponseText := delegatePreResponseText this;
     delegatePostResponseText := delegatePostResponseText this;
     delegateLivePreview := delegateLivePreview this;
     delegateFeedback := delegateFeedback this;
     delegateCheck := delegateCheck this;
     delegateErrorMessage := delegateErrorMessage this;
     displayInFlexContainer := displayInFlexContainer this;
     displayWideInput := displayWideInput this;
     displayAlwaysInColumn := displayAlwaysInColumn this;
     configSchema := configSchema this;
     _config := _config this;
     answerSchema := answerSchema this;
     _answer := data |}.

(** A tub as the base constructor and the field initialisers leave it, with
    the three members a concrete variant declares. *)
Definition new_ResponseAreaTub
    (type : option string) (cs : option ZodSchema) (ans : option ZodSchema)
    : ResponseAreaTub :=
  {| responseType := type;
     canToggleLatexInStats := false;
     delegatePreResponseText := true;
     delegatePostResponseText := true;
     delegateLivePreview := true;
     delegateFeedback := true;
     delegateCheck := true;
     delegateErrorMessage := true;
     displayInFlexContainer := true;
     displayWideInput := false;
     displayAlwaysInColumn := false;
     configSchema := cs;
     _config := JUndefined;
     answerSchema := ans;
     _answer := JUndefined |}.

(** ** Methods: state and exceptions *)

(** How a call on a tub completes.  The object is mutated in place, so a
    call that throws still leaves the tub as it was at the [throw]. *)
Inductive Completion (A : Type) : Type :=
  | Normal (result : A) (this : ResponseAreaTub)
  | Throw (e : JsError) (this : ResponseAreaTub).
Arguments Normal {A} result this.
Arguments Throw {A} e this.

Definition Method (A : Type) : Type := ResponseAreaTub → Completion A.

(** The tub a call leaves behind, however it completed. *)
Definition tub_after {A : Type} (c : Completion A) : ResponseAreaTub :=
  match c with
  | Normal _ this => this
  | Throw _ this => this
  end.

#[global] Instance Method_ret : MRet Method :=
  λ A a this, Normal a this.

#[global] Instance Method_bind : MBind Method :=
  λ A B k m this,
    match m this with
    | Normal a this' => k a this'
    | Throw e this' => Throw e this'
    end.

Definition throw {A : Type} (e : JsError) : Method A :=
  λ this, Throw e this.

(** Read a member of [this]. *)
Definition member {A : Type} (field : ResponseAreaTub → A) : Method A :=
  λ this, Normal (field this) this.

(** Assign a member of [this]. *)
Definition assign (update : ResponseAreaTub → ResponseAreaTub) : Method unit :=
  λ this, Normal tt (update this).

(** [if (cond) throw e]. *)
Definition throw_if (cond : bool) (e : JsError) : Method unit :=
  if cond then throw e else mret tt.

(** Call a method, then call it again on the tub the first call left. *)
Definition twice {A : Type} (m : Method A) : Method A :=
  λ this, m (tub_after (m this)).

(** ** Schema extraction *)

Definition extractConfig (provided : JsValue) : Method unit :=
  schema ← member configSchema;
  match schema with
  | None => mret tt
  | Some schema =>
      match safeParse schema provided with
      | ParseFailure => throw (Error "Could not extract config")
      | ParseSuccess data => assign (set_config data)
      end
  end.

Definition extractAnswer (provided : JsValue) : Method unit :=
  schema ← member answerSchema;
  match schema with
  | None => throw (Error "Not implemented")
  | Some schema =>
      match safeParse schema provided with
      | ParseFailure => throw (Error "Could not extract answer")
      | ParseSuccess data => assign (set_answer data)
      end
  end.

(** ** Initialisation paths *)

Definition initWithDefault : Method unit := mret tt.

Definition initWithResponse (response : gmap string JsValue) : Method unit :=
  extractConfig (get_property "config" response);;
  extractAnswer (get_property "answer" response).

Definition initWithStudentFragment (studentFragment : gmap string JsValue)
    : Method unit :=
  extractConfig (get_property "config" studentFragment).

Definition initWithTeacherFragment (teacherFragment : gmap string JsValue)
    : Method unit :=
  extractConfig (get_property "config" teacherFragment);;
  extractAnswer (get_property "answer" teacherFragment).

Definition setAnswer (answer : JsValue) : Method unit :=
  extractAnswer answer.

(** ** Serialisation *)

Definition toStudentFragment : Method (gmap string JsValue) :=
  type ← member responseType;
  throw_if (not_string type) (Error "Response type missing");;
  config ← member config;
  mret (object [("__typename", JStr "StudentModularResponse");
                ("responseType", of_optional_string type);
                ("config", config)]).

Definition toTeacherFragment : Method (gmap string JsValue) :=
  type ← member responseType;
  throw_if (not_string type) (Error "Response type missing");;
  answer ← member answer;
  throw_if (is_undefined answer) (Error "Answer missing");;
  config ← member config;
  mret (object [("__typename", JStr "TeacherModularResponse");
                ("responseType", of_optional_string type);
                ("config", config);
                ("answer", answer)]).

Definition toResponse : Method (gmap string JsValue) :=
  type ← member responseType;
  throw_if (not_string type) (Error "Response type missing");;
  answer ← member answer;
  throw_if (is_undefined answer) (Error "Answer missing");;
  config ← member config;
  mret (object [("responseType", of_optional_string type);
                ("config", config);
                ("answer", answer)]).

Definition toResponseMutation : Method (gmap string JsValue) :=
  type ← member responseType;
  throw_if (not_string type) (Error "Response type missing");;
  answer ← member answer;
  throw_if (is_undefined answer) (Error "Answer missing");;
  config ← member config;
  mret (object [("responseInput",
                 JObj (object [("responseType", of_optional_string type);
                               ("config", config);
                               ("answer", answer)]))]).

(** ** The dispatcher *)

Inductive DisplayMode : Type :=
  | normal
  | peek.

Definition is_peek (displayMode : DisplayMode) : bool :=
  match displayMode with
  | peek => true
  | normal => false
  end.

(** [response === undefined || displayMode === 'peek'] is the [None] case
    and the first test of the [Some] case; the casts of [response] to the
    fragment types do nothing at run time. *)
Definition initialiseTub
    (tub : ResponseAreaTub)
    (response : option (gmap string JsValue))
    (displayMode : DisplayMode) : Completion unit :=
  match response with
  | None => initWithDefault tub
  | Some response =>
      if is_peek displayMode then
        initWithDefault tub
      else if has_property "__typename" response
              && strict_equals_string (get_property "__typename" response)
                                      "TeacherModularResponse" then
        initWithTeacherFragment response tub
      else if has_property "__typename" response
              && strict_equals_string (get_property "__typename" response)
                                      "StudentModularResponse" then
        initWithStudentFragment response tub
      else
        initWithResponse response tub
  end.

(** ** Sample schemas and tubs

    Inputs for the concrete instances below: what a concrete variant would
    declare with zod. *)

(** [z.any()]: accepts every value as it is. *)
Definition z_any : ZodSchema :=
  {| safeParse := λ v, ParseSuccess v |}.

(** [z.string()]. *)
Definition z_string : ZodSchema :=
  {| safeParse := λ v, match v with JStr _ => ParseSuccess v | _ => ParseFailure end |}.

(** [schema.nullable()]. *)
Definition z_nullable (schema : ZodSchema) : ZodSchema :=
  {| safeParse := λ v, match v with JNull => ParseSuccess JNull | _ => safeParse schema v end |}.

(** [schema.default(d)]: [undefined] is replaced by [d]. *)
Definition z_default (schema : ZodSchema) (d : JsValue) : ZodSchema :=
  {| safeParse := λ v, match v with JUndefined => ParseSuccess d | _ => safeParse schema v end |}.

(** A freshly constructed variant with both schemas. *)
Definition text_tub : ResponseAreaTub :=
  new_ResponseAreaTub (Some "TEXT") (Some (z_default z_string (JStr "plain")))
                      (Some z_string).

(** A freshly constructed variant that declares no [configSchema]. *)
Definition bare_tub : ResponseAreaTub :=
  new_ResponseAreaTub (Some "TEXT") None (Some z_string).

(** A freshly constructed variant whose answer may be anything. *)
Definition loose_tub : ResponseAreaTub :=
  new_ResponseAreaTub (Some "TEXT") (Some z_any) (Some z_any).

(** A freshly constructed variant whose [responseType] is the empty string. *)
Definition unnamed_tub : ResponseAreaTub :=
  new_ResponseAreaTub (Some "") (Some z_any) (Some z_any).

(** A freshly constructed variant whose answer may be [null]. *)
Definition nullable_tub : ResponseAreaTub :=
  new_ResponseAreaTub (Some "TEXT") None (Some (z_nullable z_string)).

(** A variant that never declared its [responseType]. *)
Definition untyped_tub : ResponseAreaTub :=
  new_ResponseAreaTub None (Some z_any) (Some z_any).

(** A tub on which [setAnswer('42')] has run since construction. *)
Definition answered_tub : ResponseAreaTub :=
  tub_after (setAnswer (JStr "42") text_tub).

Definition teacher_payload : gmap string JsValue :=
  object [("__typename", JStr "TeacherModularResponse");
          ("responseType", JStr "TEXT");
          ("config", JStr "rich");
          ("answer", JStr "42")].

Definition student_payload : gmap string JsValue :=
  object [("__typename", JStr "StudentModularResponse");
          ("responseType", JStr "TEXT");
          ("config", JStr "rich")].

Definition generic_payload : gmap string JsValue :=
  object [("responseType", JStr "TEXT");
          ("config", JStr "rich");
          ("answer", JStr "42")].

(** A teacher fragment whose answer is a number, which [z.string()] rejects. *)
Definition bad_answer_payload : gmap string JsValue :=
  object [("__typename", JStr "TeacherModularResponse");
          ("responseType", JStr "TEXT");
          ("config", JStr "rich");
          ("answer", JNum 42)].

(** ** What a variant declares, and what a call gives back *)

(** Two tubs of the same variant: the members the class marks [readonly]
    and the two schemas agree. *)
Definition same_variant (a b : ResponseAreaTub) : Prop :=
  responseType a = responseType b
  ∧ canToggleLatexInStats a = canToggleLatexInStats b
  ∧ delegatePreResponseText a = delegatePreResponseText b
  ∧ delegatePostResponseText a = delegatePostResponseText b
  ∧ delegateLivePreview a = delegateLivePreview b
  ∧ delegateFeedback a = delegateFeedback b
  ∧ delegateCheck a = delegateCheck b
  ∧ delegateErrorMessage a = delegateErrorMessage b
  ∧ displayInFlexContainer a = displayInFlexContainer b
  ∧ displayWideInput a = displayWideInput b
  ∧ displayAlwaysInColumn a = displayAlwaysInColumn b
  ∧ configSchema a = configSchema b
  ∧ answerSchema a = answerSchema b.

(** What the caller of a method sees: the value returned or the error
    caught. *)
Definition outcome {A : Type} (c : Completion A) : A + JsError :=
  match c with
  | Normal a _ => inl a
  | Throw e _ => inr e
  end.

(** The error a call threw, if it threw. *)
Definition thrown {A : Type} (c : Completion A) : option JsError :=
  match c with
  | Normal _ _ => None
  | Throw e _ => Some e
  end.

(** A text variant that declares no [answerSchema]. *)
Definition schemaless_tub : ResponseAreaTub :=
  new_ResponseAreaTub (Some "TEXT") (Some z_any) None.

(** A record whose config and answer are both numbers: the text variant
    accepts neither. *)
Definition bad_payload : gmap string JsValue :=
  object [("config", JNum 7); ("answer", JNum 7)].

(** ** Running methods *)

Ltac run_method :=
  unfold initialiseTub, initWithDefault, initWithResponse,
    initWithStudentFragment, initWithTeacherFragment, setAnswer,
    toStudentFragment, toTeacherFragment, toResponse, toResponseMutation,
    extractConfig, extractAnswer, throw_if, throw, member, assign,
    mbind, Method_bind, mret, Method_ret, config, answer in *;
  simpl in *.

Lemma extractConfig_undeclared provided this :
  configSchema this = None → extractConfig provided this = Normal tt this.
Proof. intros H. run_method. by rewrite H. Qed.

Lemma extractConfig_accepted provided this schema data :
  configSchema this = Some schema →
  safeParse schema provided = ParseSuccess data →
  extractConfig provided this = Normal tt (set_config data this).
Proof. intros H Hp. run_method. by rewrite H, Hp. Qed.

Lemma extractConfig_rejected provided this schema :
  configSchema this = Some schema →
  safeParse schema provided = ParseFailure →
  extractConfig provided this = Throw (Error "Could not extract config") this.
Proof. intros H Hp. run_method. by rewrite H, Hp. Qed.

Lemma extractAnswer_accepted provided this schema data :
  answerSchema this = Some schema →
  safeParse schema provided = ParseSuccess data →
  extractAnswer provided this = Normal tt (set_answer data this).
Proof. intros H Hp. run_method. by rewrite H, Hp. Qed.

Lemma extractAnswer_rejected provided this schema :
  answerSchema this = Some schema →
  safeParse schema provided = ParseFailure →
  extractAnswer provided this = Throw (Error "Could not extract answer") this.
Proof. intros H Hp. run_method. by rewrite H, Hp. Qed.

(** Sequencing two calls on the same tub. *)
Lemma bind_Normal {A B} (m : Method A) (k : A → Method B) this a this' :
  m this = Normal a this' → (m ≫= k) this = k a this'.
Proof. intros H. unfold mbind, Method_bind. by rewrite H. Qed.

(** Both extractions accepted: the shared body of [initWithResponse] and
    [initWithTeacherFragment]. *)
Lemma extract_both_accepted payload this cs ans c a :
  configSchema this = Some cs →
  answerSchema this = Some ans →
  safeParse cs (get_property "config" payload) = ParseSuccess c →
  safeParse ans (get_property "answer" payload) = ParseSuccess a →
  (extractConfig (get_property "config" payload);;
   extractAnswer (get_property "answer" payload)) this
  = Normal tt (set_answer a (set_config c this)).
Proof.
  intros Hcs Hans Hc Ha.
  rewrite (bind_Normal _ _ _ _ _ (extractConfig_accepted _ _ _ _ Hcs Hc)).
  by apply extractAnswer_accepted with ans.
Qed.

(** The discriminant test of the dispatcher, read as a lookup. *)
Lemma typename_test_true (response : gmap string JsValue) literal :
  response !! "__typename" = Some (JStr literal) →
  has_property "__typename" response
  && strict_equals_string (get_property "__typename" response) literal = true.
Proof.
  intros H. unfold has_property, get_property. rewrite H. simpl.
  by apply bool_decide_eq_true_2.
Qed.

Lemma typename_test_false (response : gmap string JsValue) literal :
  response !! "__typename" ≠ Some (JStr literal) →
  has_property "__typename" response
  && strict_equals_string (get_property "__typename" response) literal = false.
Proof.
  intros H. unfold has_property, get_property.
  destruct (response !! "__typename") as [v|]; simpl.
  - destruct v; simpl; try done.
    apply bool_decide_eq_false_2. congruence.
  - done.
Qed.

Lemma initialiseTub_teacher tub (response : gmap string JsValue) :
  response !! "__typename" = Some (JStr "TeacherModularResponse") →
  initialiseTub tub (Some response) normal = initWithTeacherFragment response tub.
Proof.
  intros H. unfold initialiseTub. simpl.
  by rewrite (typename_test_true _ _ H).
Qed.

Lemma initialiseTub_student tub (response : gmap string JsValue) :
  response !! "__typename" = Some (JStr "StudentModularResponse") →
  initialiseTub tub (Some response) normal = initWithStudentFragment response tub.
Proof.
  intros H. unfold initialiseTub. simpl.
  rewrite typename_test_false by (rewrite H; congruence).
  by rewrite (typename_test_true _ _ H).
Qed.

Lemma initialiseTub_generic tub (response : gmap string JsValue) :
  response !! "__typename" ≠ Some (JStr "TeacherModularResponse") →
  response !! "__typename" ≠ Some (JStr "StudentModularResponse") →
  initialiseTub tub (Some response) normal = initWithResponse response tub.
Proof.
  intros HT HS. unfold initialiseTub. simpl.
  by rewrite (typename_test_false _ _ HT), (typename_test_false _ _ HS).
Qed.

(** [extractConfig] never touches the answer. *)
Lemma extractConfig_answer provided this :
  answer (tub_after (extractConfig provided this)) = answer this.
Proof.
  run_method. destruct (configSchema this) as [schema|]; [|done].
  by destruct (safeParse schema provided).
Qed.

(** ** Dispatch *)

(** C1, as the code has it: with a payload present and a display mode other
    than peek, a payload tagged [TeacherModularResponse] goes to
    [initWithTeacherFragment], one tagged [StudentModularResponse] to
    [initWithStudentFragment], and any other payload (no tag, or a tag that
    is neither) to [initWithResponse].  Config and answer end up holding
    the normalised values when the tub declares the schemas and they accept
    the payload's [config] and [answer]; on the student path only the
    config is assigned and the answer is left as it was. *)
Theorem initialiseTub_dispatch (tub : ResponseAreaTub) (response : gmap string JsValue) :
  (response !! "__typename" = Some (JStr "TeacherModularResponse") →
     initialiseTub tub (Some response) normal = initWithTeacherFragment response tub
     ∧ ∀ cs ans c a,
         configSchema tub = Some cs →
         answerSchema tub = Some ans →
         safeParse cs (get_property "config" response) = ParseSuccess c →
         safeParse ans (get_property "answer" response) = ParseSuccess a →
         initialiseTub tub (Some response) normal
         = Normal tt (set_answer a (set_config c tub)))
  ∧ (response !! "__typename" = Some (JStr "StudentModularResponse") →
     initialiseTub tub (Some response) normal = initWithStudentFragment response tub
     ∧ answer (tub_after (initialiseTub tub (Some response) normal)) = answer tub
     ∧ ∀ cs c,
         configSchema tub = Some cs →
         safeParse cs (get_property "config" response) = ParseSuccess c →
         initialiseTub tub (Some response) normal = Normal tt (set_config c tub))
  ∧ (response !! "__typename" ≠ Some (JStr "TeacherModularResponse") →
     response !! "__typename" ≠ Some (JStr "StudentModularResponse") →
     initialiseTub tub (Some response) normal = initWithResponse response tub
     ∧ ∀ cs ans c a,
         configSchema tub = Some cs →
         answerSchema tub = Some ans →
         safeParse cs (get_property "config" response) = ParseSuccess c →
         safeParse ans (get_property "answer" response) = ParseSuccess a →
         initialiseTub tub (Some response) normal
         = Normal tt (set_answer a (set_config c tub))).
Proof.
  split; [|split].
  - intros H. rewrite (initialiseTub_teacher _ _ H). split; [done|].
    intros cs ans c a Hcs Hans Hc Ha.
    by apply extract_both_accepted with cs ans.
  - intros H. rewrite (initialiseTub_student _ _ H). split; [done|]. split.
    + apply extractConfig_answer.
    + intros cs c Hcs Hc. by apply extractConfig_accepted with cs.
  - intros HT HS. rewrite (initialiseTub_generic _ _ HT HS). split; [done|].
    intros cs ans c a Hcs Hans Hc Ha.
    by apply extract_both_accepted with cs ans.
Qed.

(** The three branches on a freshly constructed text variant. *)
Lemma initialiseTub_dispatch_witness :
  initialiseTub text_tub (Some teacher_payload) normal
  = Normal tt (set_answer (JStr "42") (set_config (JStr "rich") text_tub))
  ∧ (initialiseTub text_tub (Some student_payload) normal
     = Normal tt (set_config (JStr "rich") text_tub)
     ∧ answer (tub_after (initialiseTub text_tub (Some student_payload) normal))
       = JUndefined)
  ∧ initialiseTub text_tub (Some generic_payload) normal
    = Normal tt (set_answer (JStr "42") (set_config (JStr "rich") text_tub)).
Proof.
  destruct (initialiseTub_dispatch text_tub teacher_payload) as (HT & _ & _).
  destruct (initialiseTub_dispatch text_tub student_payload) as (_ & HS & _).
  destruct (initialiseTub_dispatch text_tub generic_payload) as (_ & _ & HG).
  destruct (HT eq_refl) as [_ HT'].
  destruct (HS eq_refl) as (_ & HSa & HS').
  destruct HG as [_ HG']; [discriminate|discriminate|].
  split; [|split; [split|]].
  - by apply (HT' (z_default z_string (JStr "plain")) z_string).
  - by apply (HS' (z_default z_string (JStr "plain"))).
  - exact HSa.
  - by apply (HG' (z_default z_string (JStr "plain")) z_string).
Defined.

(** C1 as stated fails twice over.  A variant that declares no
    [configSchema] takes the teacher path and returns with an answer but
    with its config still undefined; and a teacher fragment whose answer the
    schema rejects makes the call throw with the answer still undefined. *)
Lemma initialiseTub_teacher_not_populated :
  teacher_payload !! "__typename" = Some (JStr "TeacherModularResponse")
  ∧ initialiseTub bare_tub (Some teacher_payload) normal
    = Normal tt (set_answer (JStr "42") bare_tub)
  ∧ config (set_answer (JStr "42") bare_tub) = JUndefined
  ∧ bad_answer_payload !! "__typename" = Some (JStr "TeacherModularResponse")
  ∧ initialiseTub text_tub (Some bad_answer_payload) normal
    = Throw (Error "Could not extract answer") (set_config (JStr "rich") text_tub)
  ∧ answer (set_config (JStr "rich") text_tub) = JUndefined.
Proof. repeat split. Qed.

(** C2, as the code has it: without a response, or in peek mode whatever
    the response, [initialiseTub] runs [initWithDefault], which returns
    without touching the tub; so config and answer are undefined afterwards
    whenever they were undefined before, as on a fresh tub. *)
Theorem initialiseTub_default
    (tub : ResponseAreaTub) (response : option (gmap string JsValue))
    (displayMode : DisplayMode) :
  response = None ∨ displayMode = peek →
  initialiseTub tub response displayMode = initWithDefault tub
  ∧ initialiseTub tub response displayMode = Normal tt tub
  ∧ (config tub = JUndefined → answer tub = JUndefined →
     config (tub_after (initialiseTub tub response displayMode)) = JUndefined
     ∧ answer (tub_after (initialiseTub tub response displayMode)) = JUndefined).
Proof.
  intros H.
  assert (initialiseTub tub response displayMode = Normal tt tub) as ->.
  { destruct H as [-> | ->]; [done|]. by destruct response. }
  done.
Qed.

(** A fresh tub stays blank without a response and under peek with a full
    teacher fragment. *)
Lemma initialiseTub_default_witness :
  initialiseTub text_tub None normal = Normal tt text_tub
  ∧ initialiseTub text_tub (Some teacher_payload) peek = Normal tt text_tub
  ∧ config (tub_after (initialiseTub text_tub (Some teacher_payload) peek)) = JUndefined
  ∧ answer (tub_after (initialiseTub text_tub (Some teacher_payload) peek)) = JUndefined.
Proof.
  destruct (initialiseTub_default text_tub None normal) as (_ & H1 & _);
    [left; reflexivity|].
  destruct (initialiseTub_default text_tub (Some teacher_payload) peek)
    as (_ & H2 & H3); [right; reflexivity|].
  destruct H3 as [H3 H4]; [reflexivity|reflexivity|].
  exact (conj H1 (conj H2 (conj H3 H4))).
Defined.

(** C2 as stated fails on a tub that already holds an answer: default
    initialisation is the empty method, so the answer is still there
    afterwards, with no response and under peek alike. *)
Lemma initialiseTub_default_keeps_answer :
  answered_tub = set_answer (JStr "42") text_tub
  ∧ answer (tub_after (initialiseTub answered_tub None normal)) = JStr "42"
  ∧ answer (tub_after (initialiseTub answered_tub (Some teacher_payload) peek))
    = JStr "42"
  ∧ JStr "42" ≠ JUndefined.
Proof. repeat split. discriminate. Qed.

(** ** Round trip *)

(** C3, as the code has it: on a tub whose [responseType] passes the guard
    and which declares both schemas, when they accept [config] and [answer]
    and the normalised answer is not [undefined], [initWithResponse]
    followed by [toResponse] returns [{responseType, config, answer}] with
    the normalised config and answer. *)
Theorem initWithResponse_toResponse
    (tub : ResponseAreaTub) (type : string) (cs ans : ZodSchema)
    (response : gmap string JsValue) (c a : JsValue) :
  responseType tub = Some type →
  type ≠ "" →
  configSchema tub = Some cs →
  answerSchema tub = Some ans →
  safeParse cs (get_property "config" response) = ParseSuccess c →
  safeParse ans (get_property "answer" response) = ParseSuccess a →
  a ≠ JUndefined →
  (initWithResponse response;; toResponse) tub
  = Normal (object [("responseType", JStr type); ("config", c); ("answer", a)])
           (set_answer a (set_config c tub)).
Proof.
  intros Htype Hne Hcs Hans Hc Ha Hdef.
  rewrite (bind_Normal _ _ _ _ _
             (extract_both_accepted _ _ _ _ _ _ Hcs Hans Hc Ha)).
  run_method. rewrite Htype. simpl.
  rewrite bool_decide_eq_false_2 by done.
  by destruct a.
Qed.

(** A payload without a config: the default of the schema is what comes
    back, not the raw [undefined]. *)
Lemma initWithResponse_toResponse_witness :
  (initWithResponse (object [("answer", JStr "42")]);; toResponse) text_tub
  = Normal (object [("responseType", JStr "TEXT");
                    ("config", JStr "plain");
                    ("answer", JStr "42")])
           (set_answer (JStr "42") (set_config (JStr "plain") text_tub)).
Proof.
  apply (initWithResponse_toResponse text_tub "TEXT"
           (z_default z_string (JStr "plain")) z_string);
    try reflexivity; discriminate.
Defined.

(** C3 as stated fails where the guards of [toResponse] fire or no schema
    normalises the config: an answer schema that accepts [undefined] lets
    [initWithResponse] return and [toResponse] throw, and a variant without
    [configSchema] returns its prior config, not the one provided. *)
Lemma initWithResponse_toResponse_fails :
  safeParse z_any (get_property "config" (object [("config", JStr "rich")]))
  = ParseSuccess (JStr "rich")
  ∧ safeParse z_any (get_property "answer" (object [("config", JStr "rich")]))
    = ParseSuccess JUndefined
  ∧ initWithResponse (object [("config", JStr "rich")]) loose_tub
    = Normal tt (set_answer JUndefined (set_config (JStr "rich") loose_tub))
  ∧ (initWithResponse (object [("config", JStr "rich")]);; toResponse) loose_tub
    = Throw (Error "Answer missing")
            (set_answer JUndefined (set_config (JStr "rich") loose_tub))
  ∧ (initWithResponse generic_payload;; toResponse) bare_tub
    = Normal (object [("responseType", JStr "TEXT");
                      ("config", JUndefined);
                      ("answer", JStr "42")])
             (set_answer (JStr "42") bare_tub).
Proof. repeat split. Qed.

(** ** Guards of the serialisers *)

Lemma guard_passes (type : string) : type ≠ "" → not_string (Some type) = false.
Proof. intros H. simpl. by apply bool_decide_eq_false_2. Qed.

(** C4: without a [responseType] each of the four serialisers throws
    'Response type missing'; with one, the teacher fragment, the response
    and the mutation throw 'Answer missing' when the answer is undefined
    (and with an undefined answer they throw whatever the [responseType]),
    while the student fragment is returned whatever the answer and never
    has an [answer] field. *)
Theorem serialisers_guards (tub : ResponseAreaTub) :
  (responseType tub = None →
     toStudentFragment tub = Throw (Error "Response type missing") tub
     ∧ toTeacherFragment tub = Throw (Error "Response type missing") tub
     ∧ toResponse tub = Throw (Error "Response type missing") tub
     ∧ toResponseMutation tub = Throw (Error "Response type missing") tub)
  ∧ (∀ type, responseType tub = Some type → type ≠ "" →
       answer tub = JUndefined →
       toTeacherFragment tub = Throw (Error "Answer missing") tub
       ∧ toResponse tub = Throw (Error "Answer missing") tub
       ∧ toResponseMutation tub = Throw (Error "Answer missing") tub)
  ∧ (answer tub = JUndefined →
       ∃ e, toTeacherFragment tub = Throw e tub
            ∧ toResponse tub = Throw e tub
            ∧ toResponseMutation tub = Throw e tub)
  ∧ (∀ type, responseType tub = Some type → type ≠ "" →
       toStudentFragment tub
       = Normal (object [("__typename", JStr "StudentModularResponse");
                         ("responseType", JStr type);
                         ("config", config tub)]) tub)
  ∧ (∀ fragment tub',
       toStudentFragment tub = Normal fragment tub' →
       fragment !! "answer" = None).
Proof.
  split; [|split; [|split; [|split]]].
  - intros H. run_method. by rewrite H.
  - intros type H Hne Hans. run_method.
    rewrite H, (guard_passes _ Hne), Hans. done.
  - intros Hans. run_method.
    destruct (not_string (responseType tub)); [by eexists|].
    rewrite Hans. by eexists.
  - intros type H Hne. run_method.
    by rewrite H, (guard_passes _ Hne).
  - intros fragment tub' H. run_method.
    destruct (not_string (responseType tub)); [done|].
    injection H as <- _. done.
Qed.

(** The guards on an untyped variant and on a fresh text variant. *)
Lemma serialisers_guards_witness :
  toStudentFragment untyped_tub = Throw (Error "Response type missing") untyped_tub
  ∧ toResponseMutation untyped_tub = Throw (Error "Response type missing") untyped_tub
  ∧ toTeacherFragment text_tub = Throw (Error "Answer missing") text_tub
  ∧ (∃ e, toResponse text_tub = Throw e text_tub)
  ∧ toStudentFragment text_tub
    = Normal (object [("__typename", JStr "StudentModularResponse");
                      ("responseType", JStr "TEXT");
                      ("config", JUndefined)]) text_tub
  ∧ object [("__typename", JStr "StudentModularResponse");
            ("responseType", JStr "TEXT");
            ("config", JUndefined)] !! "answer" = None.
Proof.
  destruct (serialisers_guards untyped_tub) as (H1 & _).
  destruct (serialisers_guards text_tub) as (_ & H2 & H3 & H4 & H5).
  destruct (H1 eq_refl) as (Ha & _ & _ & Hb).
  destruct (H2 "TEXT" eq_refl) as (Hc & _ & _); [discriminate|reflexivity|].
  destruct (H3 eq_refl) as (e & _ & Hd & _).
  assert ("TEXT" ≠ "") as Hne by discriminate.
  pose proof (H4 "TEXT" eq_refl Hne) as He.
  pose proof (H5 _ _ He) as Hf.
  exact (conj Ha (conj Hb (conj Hc (conj (ex_intro _ e Hd) (conj He Hf))))).
Defined.

(** ** Failed extraction *)

(** C5: when the declared schema rejects the provided value,
    [extractConfig] throws 'Could not extract config' and [extractAnswer]
    throws 'Could not extract answer', and the tub at the throw is the tub
    before the call: config and answer keep their prior values. *)
Theorem extract_rejected (tub : ResponseAreaTub) (provided : JsValue) :
  (∀ schema, configSchema tub = Some schema →
     safeParse schema provided = ParseFailure →
     extractConfig provided tub = Throw (Error "Could not extract config") tub
     ∧ config (tub_after (extractConfig provided tub)) = config tub
     ∧ answer (tub_after (extractConfig provided tub)) = answer tub)
  ∧ (∀ schema, answerSchema tub = Some schema →
     safeParse schema provided = ParseFailure →
     extractAnswer provided tub = Throw (Error "Could not extract answer") tub
     ∧ config (tub_after (extractAnswer provided tub)) = config tub
     ∧ answer (tub_after (extractAnswer provided tub)) = answer tub).
Proof.
  split; intros schema Hs Hp.
  - by rewrite (extractConfig_rejected _ _ _ Hs Hp).
  - by rewrite (extractAnswer_rejected _ _ _ Hs Hp).
Qed.

(** A number is rejected by both schemas of the text variant; the answer
    set earlier survives. *)
Lemma extract_rejected_witness :
  extractConfig (JNum 7) answered_tub
  = Throw (Error "Could not extract config") answered_tub
  ∧ extractAnswer (JNum 7) answered_tub
    = Throw (Error "Could not extract answer") answered_tub
  ∧ answer (tub_after (extractAnswer (JNum 7) answered_tub)) = JStr "42".
Proof.
  destruct (extract_rejected answered_tub (JNum 7)) as [Hc Ha].
  destruct (Hc (z_default z_string (JStr "plain")) eq_refl eq_refl) as (H1 & _).
  destruct (Ha z_string eq_refl eq_refl) as (H2 & _ & H3).
  exact (conj H1 (conj H2 H3)).
Defined.

(** C6: without a [configSchema], [extractConfig] returns normally and the
    tub afterwards is the tub before, field for field. *)
Theorem extractConfig_noop (tub : ResponseAreaTub) (provided : JsValue) :
  configSchema tub = None →
  extractConfig provided tub = Normal tt tub.
Proof. apply extractConfig_undeclared. Qed.

Lemma extractConfig_noop_witness :
  extractConfig (JStr "rich") bare_tub = Normal tt bare_tub.
Proof. apply (extractConfig_noop bare_tub (JStr "rich")). reflexivity. Defined.

(** ** Reapplying an initialiser *)

Lemma extractConfig_twice provided this :
  twice (extractConfig provided) this = extractConfig provided this.
Proof.
  unfold twice. run_method.
  destruct (configSchema this) as [schema|] eqn:Hs; simpl;
    [|by rewrite Hs].
  destruct (safeParse schema provided) as [data|] eqn:Hp; simpl;
    by rewrite ?Hs, ?Hp.
Qed.

Lemma extract_both_twice (payload : gmap string JsValue) this :
  twice (extractConfig (get_property "config" payload);;
         extractAnswer (get_property "answer" payload)) this
  = (extractConfig (get_property "config" payload);;
     extractAnswer (get_property "answer" payload)) this.
Proof.
  unfold twice. run_method.
  destruct (configSchema this) as [cs|] eqn:Hcs; simpl.
  - destruct (safeParse cs (get_property "config" payload)) as [c|] eqn:Hc;
      simpl; rewrite ?Hcs, ?Hc; simpl; [|done].
    destruct (answerSchema this) as [ans|] eqn:Hans; simpl;
      rewrite ?Hcs, ?Hc; simpl; rewrite ?Hans; [|done].
    destruct (safeParse ans (get_property "answer" payload)) eqn:Ha; simpl;
      rewrite ?Hcs, ?Hc; simpl; by rewrite ?Hans, ?Ha.
  - destruct (answerSchema this) as [ans|] eqn:Hans; simpl;
      rewrite ?Hcs; simpl; rewrite ?Hans; [|done].
    destruct (safeParse ans (get_property "answer" payload)) eqn:Ha; simpl;
      rewrite ?Hcs; simpl; by rewrite ?Hans, ?Ha.
Qed.

(** C7: each initialisation path, called again with the same payload on
    the tub its first call left behind, completes as the first call did and
    leaves that same tub. *)
Theorem init_idempotent (tub : ResponseAreaTub) (payload : gmap string JsValue) :
  (twice initWithDefault tub = initWithDefault tub
   ∧ tub_after (twice initWithDefault tub) = tub_after (initWithDefault tub))
  ∧ (twice (initWithResponse payload) tub = initWithResponse payload tub
     ∧ tub_after (twice (initWithResponse payload) tub)
       = tub_after (initWithResponse payload tub))
  ∧ (twice (initWithStudentFragment payload) tub = initWithStudentFragment payload tub
     ∧ tub_after (twice (initWithStudentFragment payload) tub)
       = tub_after (initWithStudentFragment payload tub))
  ∧ (twice (initWithTeacherFragment payload) tub = initWithTeacherFragment payload tub
     ∧ tub_after (twice (initWithTeacherFragment payload) tub)
       = tub_after (initWithTeacherFragment payload tub)).
Proof.
  assert (∀ m : Method unit, twice m tub = m tub →
            twice m tub = m tub ∧ tub_after (twice m tub) = tub_after (m tub))
    as both by (intros m H; by rewrite H).
  split; [by apply both|].
  split; [apply both, extract_both_twice|].
  split; [apply both, extractConfig_twice|].
  apply both, extract_both_twice.
Qed.

(** ** Partial initialisation *)

(** C8: when the config validates and the answer does not,
    [initWithResponse] and [initWithTeacherFragment] throw 'Could not
    extract answer' on a tub whose config is already the new value; and
    there is a tub and a payload for which that differs from the config the
    tub had. *)
Theorem init_not_atomic :
  (∀ (tub : ResponseAreaTub) (cs ans : ZodSchema)
     (payload : gmap string JsValue) (c : JsValue),
     configSchema tub = Some cs →
     answerSchema tub = Some ans →
     safeParse cs (get_property "config" payload) = ParseSuccess c →
     safeParse ans (get_property "answer" payload) = ParseFailure →
     initWithResponse payload tub
     = Throw (Error "Could not extract answer") (set_config c tub)
     ∧ initWithTeacherFragment payload tub
       = Throw (Error "Could not extract answer") (set_config c tub)
     ∧ config (set_config c tub) = c)
  ∧ (∃ (tub : ResponseAreaTub) (payload : gmap string JsValue),
       config (tub_after (initWithResponse payload tub)) ≠ config tub
       ∧ config (tub_after (initWithTeacherFragment payload tub)) ≠ config tub
       ∧ (∃ e, initWithResponse payload tub
               = Throw e (tub_after (initWithResponse payload tub)))
       ∧ (∃ e, initWithTeacherFragment payload tub
               = Throw e (tub_after (initWithTeacherFragment payload tub)))).
Proof.
  split.
  - intros tub cs ans payload c Hcs Hans Hc Ha.
    assert ((extractConfig (get_property "config" payload);;
             extractAnswer (get_property "answer" payload)) tub
            = Throw (Error "Could not extract answer") (set_config c tub)) as H.
    { rewrite (bind_Normal _ _ _ _ _ (extractConfig_accepted _ _ _ _ Hcs Hc)).
      by apply extractAnswer_rejected with ans. }
    done.
  - exists text_tub, bad_answer_payload. repeat split; try discriminate.
    all: by eexists.
Qed.

(** The text variant given a teacher fragment with a numeric answer: the
    call throws and the config, undefined before, is now 'rich'. *)
Lemma init_not_atomic_witness :
  initWithResponse bad_answer_payload text_tub
  = Throw (Error "Could not extract answer") (set_config (JStr "rich") text_tub)
  ∧ initWithTeacherFragment bad_answer_payload text_tub
    = Throw (Error "Could not extract answer") (set_config (JStr "rich") text_tub)
  ∧ config (set_config (JStr "rich") text_tub) = JStr "rich"
  ∧ config text_tub = JUndefined.
Proof.
  destruct (proj1 init_not_atomic text_tub (z_default z_string (JStr "plain"))
              z_string bad_answer_payload (JStr "rich")
              eq_refl eq_refl eq_refl eq_refl) as (H1 & H2 & H3).
  exact (conj H1 (conj H2 (conj H3 eq_refl))).
Defined.

(** ** Empty response type and null answer *)

(** C9: a [responseType] equal to the empty string fails the guard like a
    missing one: each of the four serialisers throws 'Response type
    missing'. *)
Theorem empty_responseType_missing (tub : ResponseAreaTub) :
  responseType tub = Some "" →
  toStudentFragment tub = Throw (Error "Response type missing") tub
  ∧ toTeacherFragment tub = Throw (Error "Response type missing") tub
  ∧ toResponse tub = Throw (Error "Response type missing") tub
  ∧ toResponseMutation tub = Throw (Error "Response type missing") tub.
Proof. intros H. run_method. by rewrite H. Qed.

Lemma empty_responseType_missing_witness :
  toStudentFragment unnamed_tub = Throw (Error "Response type missing") unnamed_tub
  ∧ toTeacherFragment unnamed_tub = Throw (Error "Response type missing") unnamed_tub
  ∧ toResponse unnamed_tub = Throw (Error "Response type missing") unnamed_tub
  ∧ toResponseMutation unnamed_tub
    = Throw (Error "Response type missing") unnamed_tub.
Proof. apply (empty_responseType_missing unnamed_tub). reflexivity. Defined.

(** C10: on a tub whose [responseType] passes the guard, once the answer
    schema has normalised a provided value to [null], the teacher fragment,
    the response and the mutation are all returned, each with [answer]
    equal to [null]. *)
Theorem null_answer_serialised
    (tub : ResponseAreaTub) (type : string) (schema : ZodSchema)
    (provided : JsValue) :
  responseType tub = Some type →
  type ≠ "" →
  answerSchema tub = Some schema →
  safeParse schema provided = ParseSuccess JNull →
  (setAnswer provided;; toTeacherFragment) tub
  = Normal (object [("__typename", JStr "TeacherModularResponse");
                    ("responseType", JStr type);
                    ("config", config tub);
                    ("answer", JNull)])
           (set_answer JNull tub)
  ∧ (setAnswer provided;; toResponse) tub
    = Normal (object [("responseType", JStr type);
                      ("config", config tub);
                      ("answer", JNull)])
             (set_answer JNull tub)
  ∧ (setAnswer provided;; toResponseMutation) tub
    = Normal (object [("responseInput",
                       JObj (object [("responseType", JStr type);
                                     ("config", config tub);
                                     ("answer", JNull)]))])
             (set_answer JNull tub).
Proof.
  intros Htype Hne Hs Hp.
  pose proof (extractAnswer_accepted _ _ _ _ Hs Hp) as H.
  unfold setAnswer.
  rewrite !(bind_Normal _ _ _ _ _ H).
  run_method. by rewrite Htype, (guard_passes _ Hne).
Qed.

Lemma null_answer_serialised_witness :
  (setAnswer JNull;; toTeacherFragment) nullable_tub
  = Normal (object [("__typename", JStr "TeacherModularResponse");
                    ("responseType", JStr "TEXT");
                    ("config", JUndefined);
                    ("answer", JNull)])
           (set_answer JNull nullable_tub)
  ∧ (setAnswer JNull;; toResponse) nullable_tub
    = Normal (object [("responseType", JStr "TEXT");
                      ("config", JUndefined);
                      ("answer", JNull)])
             (set_answer JNull nullable_tub)
  ∧ (setAnswer JNull;; toResponseMutation) nullable_tub
    = Normal (object [("responseInput",
                       JObj (object [("responseType", JStr "TEXT");
                                     ("config", JUndefined);
                                     ("answer", JNull)]))])
             (set_answer JNull nullable_tub).
Proof.
  apply (null_answer_serialised nullable_tub "TEXT" (z_nullable z_string) JNull);
    try reflexivity; discriminate.
Defined.

(** * Further properties of the class *)

(** ** What no call changes *)

Lemma set_config_own this : set_config (_config this) this = this.
Proof. by destruct this. Qed.

Lemma set_answer_own this : set_answer (_answer this) this = this.
Proof. by destruct this. Qed.

(** Whatever [extractConfig] and [extractAnswer] do in sequence, the tub
    left behind is the tub before with some config and some answer. *)
Lemma extract_both_shape (c a : JsValue) this :
  ∃ c' a', tub_after ((extractConfig c;; extractAnswer a) this)
           = set_answer a' (set_config c' this).
Proof.
  run_method.
  destruct (configSchema this) as [cs|]; simpl.
  - destruct (safeParse cs c) as [c'|]; simpl.
    + destruct (answerSchema this) as [ans|]; simpl.
      * destruct (safeParse ans a) as [a'|]; simpl.
        -- by exists c', a'.
        -- exists c', (_answer this). by destruct this.
      * exists c', (_answer this). by destruct this.
    + exists (_config this), (_answer this). by destruct this.
  - destruct (answerSchema this) as [ans|]; simpl.
    + destruct (safeParse ans a) as [a'|]; simpl.
      * exists (_config this), a'. by destruct this.
      * exists (_config this), (_answer this). by destruct this.
    + exists (_config this), (_answer this). by destruct this.
Qed.

Lemma extractConfig_shape (c : JsValue) this :
  ∃ c', tub_after (extractConfig c this) = set_config c' this.
Proof.
  run_method.
  destruct (configSchema this) as [cs|]; simpl.
  - destruct (safeParse cs c) as [c'|]; simpl.
    + by exists c'.
    + exists (_config this). by destruct this.
  - exists (_config this). by destruct this.
Qed.

Lemma extractAnswer_shape (a : JsValue) this :
  ∃ a', tub_after (extractAnswer a this) = set_answer a' this.
Proof.
  run_method.
  destruct (answerSchema this) as [ans|]; simpl.
  - destruct (safeParse ans a) as [a'|]; simpl.
    + by exists a'.
    + exists (_answer this). by destruct this.
  - exists (_answer this). by destruct this.
Qed.

(** The tub [initialiseTub] leaves is the tub it got with some config and
    some answer. *)
Lemma initialiseTub_shape tub response displayMode :
  ∃ c a, tub_after (initialiseTub tub response displayMode)
         = set_answer a (set_config c tub).
Proof.
  assert (∃ c a, tub = set_answer a (set_config c tub)) as Hid.
  { exists (_config tub), (_answer tub). by destruct tub. }
  unfold initialiseTub.
  destruct response as [response|]; [|exact Hid].
  destruct (is_peek displayMode); [exact Hid|].
  destruct (_ && _); [apply extract_both_shape|].
  destruct (_ && _); [|apply extract_both_shape].
  destruct (extractConfig_shape (get_property "config" response) tub) as [c Hc].
  exists c, (_answer (set_config c tub)).
  unfold initWithStudentFragment. rewrite Hc. by destruct tub.
Qed.

Lemma same_variant_set c a this : same_variant this (set_answer a (set_config c this)).
Proof. by repeat split. Qed.

(** X1: no initialisation path, nor [initialiseTub], nor [setAnswer],
    however it completes, changes the [responseType], a flag or a schema
    of the tub: only config and answer can differ afterwards. *)
Theorem calls_keep_variant
    (tub : ResponseAreaTub) (response : option (gmap string JsValue))
    (displayMode : DisplayMode) (payload : gmap string JsValue)
    (provided : JsValue) :
  same_variant tub (tub_after (initialiseTub tub response displayMode))
  ∧ same_variant tub (tub_after (initWithDefault tub))
  ∧ same_variant tub (tub_after (initWithResponse payload tub))
  ∧ same_variant tub (tub_after (initWithStudentFragment payload tub))
  ∧ same_variant tub (tub_after (initWithTeacherFragment payload tub))
  ∧ same_variant tub (tub_after (setAnswer provided tub)).
Proof.
  split; [|split; [|split; [|split; [|split]]]].
  - destruct (initialiseTub_shape tub response displayMode) as (c & a & ->).
    apply same_variant_set.
  - by repeat split.
  - destruct (extract_both_shape (get_property "config" payload)
                (get_property "answer" payload) tub) as (c & a & H).
    unfold initWithResponse. rewrite H. apply same_variant_set.
  - destruct (extractConfig_shape (get_property "config" payload) tub) as (c & H).
    unfold initWithStudentFragment. rewrite H. by repeat split.
  - destruct (extract_both_shape (get_property "config" payload)
                (get_property "answer" payload) tub) as (c & a & H).
    unfold initWithTeacherFragment. rewrite H. apply same_variant_set.
  - destruct (extractAnswer_shape provided tub) as (a & H).
    unfold setAnswer. rewrite H. by repeat split.
Qed.

(** X2: the four serialisers never modify the tub, whether they return or
    throw, and what they return or throw depends on the tub's
    [responseType], config and answer alone. *)
Theorem serialisers_read_only (tub other : ResponseAreaTub) :
  (tub_after (toStudentFragment tub) = tub
   ∧ tub_after (toTeacherFragment tub) = tub
   ∧ tub_after (toResponse tub) = tub
   ∧ tub_after (toResponseMutation tub) = tub)
  ∧ (responseType other = responseType tub →
     config other = config tub →
     answer other = answer tub →
     outcome (toStudentFragment other) = outcome (toStudentFragment tub)
     ∧ outcome (toTeacherFragment other) = outcome (toTeacherFragment tub)
     ∧ outcome (toResponse other) = outcome (toResponse tub)
     ∧ outcome (toResponseMutation other) = outcome (toResponseMutation tub)).
Proof.
  split.
  - run_method.
    destruct (not_string (responseType tub)); simpl; [done|].
    by destruct (is_undefined (_answer tub)).
  - intros Ht Hc Ha. run_method. rewrite Ht.
    destruct (not_string (responseType tub)); simpl; [done|].
    rewrite Hc, Ha.
    destruct (is_undefined (_answer tub)); simpl; by rewrite ?Hc.
Qed.

(** The flags and schemas play no part: a text variant and a nullable one
    that hold the same answer serialise alike. *)
Lemma serialisers_read_only_witness :
  outcome (toTeacherFragment (set_answer (JStr "42") nullable_tub))
  = outcome (toTeacherFragment (set_answer (JStr "42") text_tub))
  ∧ outcome (toResponseMutation (set_answer (JStr "42") nullable_tub))
    = outcome (toResponseMutation (set_answer (JStr "42") text_tub)).
Proof.
  destruct (serialisers_read_only (set_answer (JStr "42") text_tub)
              (set_answer (JStr "42") nullable_tub)) as [_ H].
  destruct H as (_ & H1 & _ & H2); [reflexivity|reflexivity|reflexivity|].
  exact (conj H1 H2).
Defined.

(** ** Only validated values are stored *)

Lemma extractConfig_validated (c : JsValue) this :
  config (tub_after (extractConfig c this)) = config this
  ∨ ∃ cs, configSchema this = Some cs
          ∧ safeParse cs c = ParseSuccess (config (tub_after (extractConfig c this))).
Proof.
  run_method.
  destruct (configSchema this) as [cs|]; simpl; [|by left].
  destruct (safeParse cs c) as [c'|] eqn:Hp; simpl; [|by left].
  right. by exists cs.
Qed.

Lemma extractAnswer_validated (a : JsValue) this :
  answer (tub_after (extractAnswer a this)) = answer this
  ∨ ∃ ans, answerSchema this = Some ans
           ∧ safeParse ans a = ParseSuccess (answer (tub_after (extractAnswer a this))).
Proof.
  run_method.
  destruct (answerSchema this) as [ans|]; simpl; [|by left].
  destruct (safeParse ans a) as [a'|] eqn:Hp; simpl; [|by left].
  right. by exists ans.
Qed.

Lemma extractAnswer_config (a : JsValue) this :
  config (tub_after (extractAnswer a this)) = config this.
Proof.
  run_method.
  destruct (answerSchema this) as [ans|]; simpl; [|done].
  by destruct (safeParse ans a).
Qed.

(** The tub after a sequence is the tub after its second call, run on the
    tub after the first, unless the first threw. *)
Lemma tub_after_bind {A B} (m : Method A) (k : Method B) this :
  tub_after ((m;; k) this)
  = match m this with
    | Normal _ this' => tub_after (k this')
    | Throw _ this' => this'
    end.
Proof. unfold mbind, Method_bind. by destruct (m this). Qed.

Lemma extract_both_validated (c a : JsValue) this :
  (config (tub_after ((extractConfig c;; extractAnswer a) this)) = config this
   ∨ ∃ cs, configSchema this = Some cs
           ∧ safeParse cs c
             = ParseSuccess (config (tub_after ((extractConfig c;; extractAnswer a) this))))
  ∧ (answer (tub_after ((extractConfig c;; extractAnswer a) this)) = answer this
     ∨ ∃ ans, answerSchema this = Some ans
              ∧ safeParse ans a
                = ParseSuccess (answer (tub_after ((extractConfig c;; extractAnswer a) this)))).
Proof.
  rewrite tub_after_bind.
  pose proof (extractConfig_validated c this) as Hc.
  pose proof (extractConfig_answer c this) as Hca.
  destruct (extractConfig_shape c this) as [c' Hshape].
  destruct (extractConfig c this) as [[] this'|e this']; simpl in *.
  - pose proof (extractAnswer_validated a this') as Ha.
    rewrite extractAnswer_config. split; [done|].
    rewrite Hca in Ha. subst this'. exact Ha.
  - split; [done|]. by left.
Qed.

(** X3: whatever the payload and the display mode, the config a tub holds
    after [initialiseTub] is the one it held before or the value its
    declared [configSchema] returned for the payload's [config]; the
    answer is the one held before or the value the declared [answerSchema]
    returned for the payload's [answer].  Nothing unvalidated is stored. *)
Theorem initialiseTub_stores_validated
    (tub : ResponseAreaTub) (response : gmap string JsValue)
    (displayMode : DisplayMode) :
  (config (tub_after (initialiseTub tub (Some response) displayMode)) = config tub
   ∨ ∃ cs, configSchema tub = Some cs
           ∧ safeParse cs (get_property "config" response)
             = ParseSuccess
                 (config (tub_after (initialiseTub tub (Some response) displayMode))))
  ∧ (answer (tub_after (initialiseTub tub (Some response) displayMode)) = answer tub
     ∨ ∃ ans, answerSchema tub = Some ans
              ∧ safeParse ans (get_property "answer" response)
                = ParseSuccess
                    (answer (tub_after (initialiseTub tub (Some response) displayMode)))).
Proof.
  unfold initialiseTub.
  destruct (is_peek displayMode); [split; by left|].
  destruct (_ && _); [apply extract_both_validated|].
  destruct (_ && _); [|apply extract_both_validated].
  unfold initWithStudentFragment. split.
  - apply extractConfig_validated.
  - left. apply extractConfig_answer.
Qed.

(** ** The tag that matters *)

Lemma get_property_delete (k k' : string) (o : gmap string JsValue) :
  k ≠ k' → get_property k' (delete k o) = get_property k' o.
Proof. intros H. unfold get_property. by rewrite lookup_delete_ne. Qed.

(** X4: only the student tag changes what [initialiseTub] does.  With any
    other [__typename] (the teacher tag included) the call completes as it
    does on the same payload with [__typename] removed. *)
Theorem initialiseTub_tag_irrelevant
    (tub : ResponseAreaTub) (response : gmap string JsValue)
    (displayMode : DisplayMode) :
  response !! "__typename" ≠ Some (JStr "StudentModularResponse") →
  initialiseTub tub (Some response) displayMode
  = initialiseTub tub (Some (delete "__typename" response)) displayMode.
Proof.
  intros HS. unfold initialiseTub.
  destruct (is_peek displayMode); [done|].
  rewrite (typename_test_false _ _ HS).
  rewrite (typename_test_false (delete "__typename" response)
             "TeacherModularResponse")
    by (rewrite lookup_delete_eq; discriminate).
  rewrite (typename_test_false (delete "__typename" response)
             "StudentModularResponse")
    by (rewrite lookup_delete_eq; discriminate).
  assert (initWithTeacherFragment response tub
          = initWithResponse (delete "__typename" response) tub) as HT.
  { unfold initWithTeacherFragment, initWithResponse.
    by rewrite !get_property_delete. }
  assert (initWithResponse response tub
          = initWithResponse (delete "__typename" response) tub) as HG.
  { unfold initWithResponse. by rewrite !get_property_delete. }
  by destruct (_ && _).
Qed.

(** A teacher fragment and the record without its tag initialise the text
    variant alike. *)
Lemma initialiseTub_tag_irrelevant_witness :
  initialiseTub text_tub (Some teacher_payload) normal
  = initialiseTub text_tub (Some (delete "__typename" teacher_payload)) normal.
Proof.
  apply (initialiseTub_tag_irrelevant text_tub teacher_payload normal).
  discriminate.
Defined.

Lemma bind_Throw {A B} (m : Method A) (k : A → Method B) this e this' :
  m this = Throw e this' → (m ≫= k) this = Throw e this'.
Proof. intros H. unfold mbind, Method_bind. by rewrite H. Qed.

(** X5: on every payload the student path and the teacher path leave the
    same config, and when the config is rejected they throw the same error
    on the same, unchanged tub; the teacher path differs only in what it
    then does to the answer. *)
Theorem student_teacher_same_config
    (tub : ResponseAreaTub) (payload : gmap string JsValue) :
  config (tub_after (initWithStudentFragment payload tub))
  = config (tub_after (initWithTeacherFragment payload tub))
  ∧ (∀ e this, initWithStudentFragment payload tub = Throw e this →
               initWithTeacherFragment payload tub = Throw e this ∧ this = tub).
Proof.
  unfold initWithStudentFragment, initWithTeacherFragment. split.
  - rewrite tub_after_bind.
    destruct (extractConfig _ tub) as [[] this'|e this']; simpl; [|done].
    by rewrite extractAnswer_config.
  - intros e this H. split; [by apply bind_Throw|].
    revert H. run_method.
    destruct (configSchema tub) as [cs|]; simpl; [|done].
    destruct (safeParse cs _); simpl; [done|]. by intros [= _ ->].
Qed.

Lemma student_teacher_same_config_witness :
  initWithStudentFragment bad_payload text_tub
  = Throw (Error "Could not extract config") text_tub
  ∧ initWithTeacherFragment bad_payload text_tub
    = Throw (Error "Could not extract config") text_tub.
Proof.
  assert (initWithStudentFragment bad_payload text_tub
          = Throw (Error "Could not extract config") text_tub) as H
    by reflexivity.
  destruct (student_teacher_same_config text_tub bad_payload) as [_ HT].
  destruct (HT _ _ H) as [HT' _].
  exact (conj H HT').
Defined.

(** ** Which error comes first *)

(** X6: when the declared [configSchema] rejects the payload's config,
    [initWithResponse] and [initWithTeacherFragment] throw 'Could not
    extract config' and leave the tub as it was, whatever the answer is
    and whether or not an [answerSchema] is declared: the answer is not
    looked at. *)
Theorem config_rejected_first
    (tub : ResponseAreaTub) (cs : ZodSchema) (payload : gmap string JsValue) :
  configSchema tub = Some cs →
  safeParse cs (get_property "config" payload) = ParseFailure →
  initWithResponse payload tub = Throw (Error "Could not extract config") tub
  ∧ initWithTeacherFragment payload tub
    = Throw (Error "Could not extract config") tub
  ∧ initWithStudentFragment payload tub
    = Throw (Error "Could not extract config") tub.
Proof.
  intros Hcs Hp.
  pose proof (extractConfig_rejected _ _ _ Hcs Hp) as H.
  unfold initWithResponse, initWithTeacherFragment, initWithStudentFragment.
  by rewrite (bind_Throw _ _ _ _ _ H).
Qed.

Lemma config_rejected_first_witness :
  initWithResponse bad_payload text_tub
  = Throw (Error "Could not extract config") text_tub
  ∧ initWithResponse bad_payload
      (new_ResponseAreaTub (Some "TEXT") (Some z_string) None)
    = Throw (Error "Could not extract config")
        (new_ResponseAreaTub (Some "TEXT") (Some z_string) None).
Proof.
  split.
  - apply (config_rejected_first text_tub (z_default z_string (JStr "plain"))
             bad_payload); reflexivity.
  - apply (config_rejected_first
             (new_ResponseAreaTub (Some "TEXT") (Some z_string) None)
             z_string bad_payload); reflexivity.
Defined.

(** X7: on a tub without an [answerSchema], [setAnswer] throws 'Not
    implemented' for every value and leaves the tub as it was, and
    [initWithResponse] and [initWithTeacherFragment] never return: they
    throw the config error on the unchanged tub or 'Not implemented' after
    the config step.  [initWithStudentFragment] does not need the schema:
    it completes as [extractConfig] alone does. *)
Theorem answerSchema_undeclared
    (tub : ResponseAreaTub) (provided : JsValue) (payload : gmap string JsValue) :
  answerSchema tub = None →
  setAnswer provided tub = Throw (Error "Not implemented") tub
  ∧ (thrown (initWithResponse payload tub) = Some (Error "Could not extract config")
     ∧ tub_after (initWithResponse payload tub) = tub
     ∨ initWithResponse payload tub
       = Throw (Error "Not implemented")
           (tub_after (extractConfig (get_property "config" payload) tub)))
  ∧ initWithTeacherFragment payload tub = initWithResponse payload tub
  ∧ initWithStudentFragment payload tub
    = extractConfig (get_property "config" payload) tub.
Proof.
  intros Hans. split; [|split; [|done]].
  - run_method. by rewrite Hans.
  - run_method.
    destruct (configSchema tub) as [cs|]; simpl.
    + destruct (safeParse cs _); simpl.
      * right. by rewrite Hans.
      * by left.
    + right. by rewrite Hans.
Qed.

Lemma answerSchema_undeclared_witness :
  setAnswer (JStr "42") schemaless_tub
  = Throw (Error "Not implemented") schemaless_tub
  ∧ initWithResponse generic_payload schemaless_tub
    = Throw (Error "Not implemented") (set_config (JStr "rich") schemaless_tub)
  ∧ initWithStudentFragment student_payload schemaless_tub
    = Normal tt (set_config (JStr "rich") schemaless_tub).
Proof.
  destruct (answerSchema_undeclared schemaless_tub (JStr "42") generic_payload
              eq_refl) as (H1 & H2 & _).
  destruct (answerSchema_undeclared schemaless_tub (JStr "42") student_payload
              eq_refl) as (_ & _ & _ & H3).
  destruct H2 as [[H2 _]|H2]; [discriminate H2|].
  exact (conj H1 (conj H2 H3)).
Defined.

(** ** Setting the answer *)

(** X8: on a tub whose [responseType] passes the guard, when the answer
    schema accepts a value and what it returns is not [undefined],
    [setAnswer] followed by any of the three answer-bearing serialisers
    returns the new, normalised answer in place of whatever answer the tub
    held, with the config as it was. *)
Theorem setAnswer_then_serialise
    (tub : ResponseAreaTub) (type : string) (schema : ZodSchema)
    (provided a : JsValue) :
  responseType tub = Some type →
  type ≠ "" →
  answerSchema tub = Some schema →
  safeParse schema provided = ParseSuccess a →
  a ≠ JUndefined →
  (setAnswer provided;; toTeacherFragment) tub
  = Normal (object [("__typename", JStr "TeacherModularResponse");
                    ("responseType", JStr type);
                    ("config", config tub);
                    ("answer", a)])
           (set_answer a tub)
  ∧ (setAnswer provided;; toResponse) tub
    = Normal (object [("responseType", JStr type);
                      ("config", config tub);
                      ("answer", a)])
             (set_answer a tub)
  ∧ (setAnswer provided;; toResponseMutation) tub
    = Normal (object [("responseInput",
                       JObj (object [("responseType", JStr type);
                                     ("config", config tub);
                                     ("answer", a)]))])
             (set_answer a tub).
Proof.
  intros Htype Hne Hs Hp Hdef.
  pose proof (extractAnswer_accepted _ _ _ _ Hs Hp) as H.
  unfold setAnswer.
  rewrite !(bind_Normal _ _ _ _ _ H).
  run_method. rewrite Htype, (guard_passes _ Hne).
  by destruct a.
Qed.

(** The answer '42' set earlier is replaced by 'seven'. *)
Lemma setAnswer_then_serialise_witness :
  answer answered_tub = JStr "42"
  ∧ (setAnswer (JStr "seven");; toResponse) answered_tub
    = Normal (object [("responseType", JStr "TEXT");
                      ("config", JUndefined);
                      ("answer", JStr "seven")])
             (set_answer (JStr "seven") answered_tub).
Proof.
  split; [reflexivity|].
  apply (setAnswer_then_serialise answered_tub "TEXT" z_string
           (JStr "seven") (JStr "seven")); try reflexivity; discriminate.
Defined.

(** X9: [setAnswer] can unset the answer.  When the answer schema accepts
    a value and returns [undefined] for it, [setAnswer] returns normally,
    and on a tub whose [responseType] passes the guard the teacher
    fragment, the response and the mutation then throw 'Answer missing',
    even if the tub held an answer before. *)
Theorem setAnswer_can_unset
    (tub : ResponseAreaTub) (type : string) (schema : ZodSchema)
    (provided : JsValue) :
  responseType tub = Some type →
  type ≠ "" →
  answerSchema tub = Some schema →
  safeParse schema provided = ParseSuccess JUndefined →
  setAnswer provided tub = Normal tt (set_answer JUndefined tub)
  ∧ (setAnswer provided;; toTeacherFragment) tub
    = Throw (Error "Answer missing") (set_answer JUndefined tub)
  ∧ (setAnswer provided;; toResponse) tub
    = Throw (Error "Answer missing") (set_answer JUndefined tub)
  ∧ (setAnswer provided;; toResponseMutation) tub
    = Throw (Error "Answer missing") (set_answer JUndefined tub).
Proof.
  intros Htype Hne Hs Hp.
  pose proof (extractAnswer_accepted _ _ _ _ Hs Hp) as H.
  unfold setAnswer. split; [done|].
  rewrite !(bind_Normal _ _ _ _ _ H).
  run_method. by rewrite Htype, (guard_passes _ Hne).
Qed.

(** A loose variant that holds '42' loses it to [setAnswer(undefined)]. *)
Lemma setAnswer_can_unset_witness :
  toResponse (set_answer (JStr "42") loose_tub)
  = Normal (object [("responseType", JStr "TEXT");
                    ("config", JUndefined);
                    ("answer", JStr "42")])
           (set_answer (JStr "42") loose_tub)
  ∧ (setAnswer JUndefined;; toResponse) (set_answer (JStr "42") loose_tub)
    = Throw (Error "Answer missing") (set_answer JUndefined loose_tub).
Proof.
  split; [reflexivity|].
  assert ("TEXT" ≠ "") as Hne by discriminate.
  destruct (setAnswer_can_unset (set_answer (JStr "42") loose_tub) "TEXT" z_any
              JUndefined eq_refl Hne eq_refl eq_refl) as (_ & _ & H & _).
  exact H.
Defined.

(** X10: the last accepted answer wins.  When the answer schema accepts
    the second value, two calls of [setAnswer] leave the tub that the
    second call alone would leave, whatever the first value was and
    whether or not it was accepted. *)
Theorem setAnswer_last_wins
    (tub : ResponseAreaTub) (schema : ZodSchema) (first second a : JsValue) :
  answerSchema tub = Some schema →
  safeParse schema second = ParseSuccess a →
  setAnswer second (tub_after (setAnswer first tub)) = Normal tt (set_answer a tub)
  ∧ setAnswer second tub = Normal tt (set_answer a tub).
Proof.
  intros Hs Hp. split.
  - destruct (extractAnswer_shape first tub) as [a' H].
    unfold setAnswer. rewrite H.
    by rewrite (extractAnswer_accepted second (set_answer a' tub) schema a Hs Hp).
  - by apply extractAnswer_accepted with schema.
Qed.

Lemma setAnswer_last_wins_witness :
  setAnswer (JStr "seven") (tub_after (setAnswer (JStr "42") text_tub))
  = Normal tt (set_answer (JStr "seven") text_tub)
  ∧ setAnswer (JStr "seven") (tub_after (setAnswer (JNum 7) text_tub))
    = Normal tt (set_answer (JStr "seven") text_tub).
Proof.
  split.
  - apply (setAnswer_last_wins text_tub z_string (JStr "42") (JStr "seven"));
      reflexivity.
  - apply (setAnswer_last_wins text_tub z_string (JNum 7) (JStr "seven"));
      reflexivity.
Defined.

(** ** How the serialisers relate *)

(** X11: the three answer-bearing serialisers succeed and fail together:
    the mutation is the response under [responseInput], the teacher
    fragment is the response with the teacher tag added; and whenever the
    teacher fragment is returned, the student fragment is that fragment
    with the answer removed and the tag replaced. *)
Theorem serialisers_agree (tub : ResponseAreaTub) :
  toResponseMutation tub
  = match toResponse tub with
    | Normal response this =>
        Normal (object [("responseInput", JObj response)]) this
    | Throw e this => Throw e this
    end
  ∧ toTeacherFragment tub
    = match toResponse tub with
      | Normal response this =>
          Normal (<["__typename" := JStr "TeacherModularResponse"]> response) this
      | Throw e this => Throw e this
      end
  ∧ (∀ fragment this,
       toTeacherFragment tub = Normal fragment this →
       toStudentFragment tub
       = Normal (<["__typename" := JStr "StudentModularResponse"]>
                   (delete "answer" fragment)) this).
Proof.
  run_method.
  destruct (not_string (responseType tub)); simpl; [done|].
  destruct (is_undefined (_answer tub)); simpl; [done|].
  split; [done|]. split; [done|].
  by intros fragment this [= <- <-].
Qed.

Lemma serialisers_agree_witness :
  toStudentFragment answered_tub
  = Normal (<["__typename" := JStr "StudentModularResponse"]>
              (delete "answer"
                 (object [("__typename", JStr "TeacherModularResponse");
                          ("responseType", JStr "TEXT");
                          ("config", JUndefined);
                          ("answer", JStr "42")])))
           answered_tub.
Proof.
  destruct (serialisers_agree answered_tub) as (_ & _ & H).
  apply H. reflexivity.
Defined.

(** ** Fragments fed back to the dispatcher *)

(** X12: what a tub serialises can initialise a tub again.  When the
    target's schemas return the source's config and answer unchanged,
    [initialiseTub] on the teacher fragment or on the response of the
    source gives the target that config and that answer, and on the
    student fragment the config alone; a tub initialised from its own
    teacher fragment is left exactly as it was. *)
Theorem fragments_round_trip
    (tub target : ResponseAreaTub) (type : string) (cs ans : ZodSchema) :
  responseType tub = Some type →
  type ≠ "" →
  answer tub ≠ JUndefined →
  configSchema target = Some cs →
  answerSchema target = Some ans →
  safeParse cs (config tub) = ParseSuccess (config tub) →
  safeParse ans (answer tub) = ParseSuccess (answer tub) →
  ∃ teacher response student,
    toTeacherFragment tub = Normal teacher tub
    ∧ toResponse tub = Normal response tub
    ∧ toStudentFragment tub = Normal student tub
    ∧ initialiseTub target (Some teacher) normal
      = Normal tt (set_answer (answer tub) (set_config (config tub) target))
    ∧ initialiseTub target (Some response) normal
      = Normal tt (set_answer (answer tub) (set_config (config tub) target))
    ∧ initialiseTub target (Some student) normal
      = Normal tt (set_config (config tub) target)
    ∧ (target = tub → initialiseTub tub (Some teacher) normal = Normal tt tub).
Proof.
  intros Htype Hne Hdef Hcs Hans Hc Ha.
  assert (is_undefined (answer tub) = false) as Hu
    by (destruct (answer tub); done).
  eexists _, _, _.
  split; [|split; [|split]].
  - run_method. by rewrite Htype, (guard_passes _ Hne), Hu.
  - run_method. by rewrite Htype, (guard_passes _ Hne), Hu.
  - run_method. by rewrite Htype, (guard_passes _ Hne).
  - assert (initialiseTub target
              (Some (object [("__typename", JStr "TeacherModularResponse");
                             ("responseType", of_optional_string (Some type));
                             ("config", config tub); ("answer", answer tub)]))
              normal
            = Normal tt (set_answer (answer tub) (set_config (config tub) target)))
      as HT.
    { rewrite initialiseTub_teacher by done.
      by apply extract_both_accepted with cs ans. }
    split; [exact HT|]. split; [|split].
    + rewrite initialiseTub_generic by done.
      by apply extract_both_accepted with cs ans.
    + rewrite initialiseTub_student by done.
      by apply extractConfig_accepted with cs.
    + intros ->. etrans; [exact HT|]. f_equal. by destruct tub.
Qed.

(** The text variant holding 'rich' and '42', copied into a fresh text
    variant through its teacher fragment. *)
Lemma fragments_round_trip_witness :
  ∃ teacher,
    toTeacherFragment (set_answer (JStr "42") (set_config (JStr "rich") text_tub))
    = Normal teacher (set_answer (JStr "42") (set_config (JStr "rich") text_tub))
    ∧ initialiseTub text_tub (Some teacher) normal
      = Normal tt (set_answer (JStr "42") (set_config (JStr "rich") text_tub)).
Proof.
  assert ("TEXT" ≠ "") as Hne by discriminate.
  assert (JStr "42" ≠ JUndefined) as Hdef by discriminate.
  destruct (fragments_round_trip
              (set_answer (JStr "42") (set_config (JStr "rich") text_tub))
              text_tub "TEXT" (z_default z_string (JStr "plain")) z_string
              eq_refl Hne Hdef eq_refl eq_refl eq_refl eq_refl)
    as (teacher & response & student & H1 & _ & _ & H2 & _).
  exists teacher. exact (conj H1 H2).
Defined.

(** X13: a payload that has none of [__typename], [config] and [answer]
    is initialised like the empty object, with both extractions run on
    [undefined].  The envelope [toResponseMutation] returns is such a
    payload: the values under [responseInput] are not read. *)
Theorem initialiseTub_bare_payload
    (tub source : ResponseAreaTub) (response : gmap string JsValue) :
  (response !! "__typename" = None →
   response !! "config" = None →
   response !! "answer" = None →
   initialiseTub tub (Some response) normal = initialiseTub tub (Some ∅) normal
   ∧ initialiseTub tub (Some response) normal
     = (extractConfig JUndefined;; extractAnswer JUndefined) tub)
  ∧ (∀ mutation this,
       toResponseMutation source = Normal mutation this →
       initialiseTub tub (Some mutation) normal
       = (extractConfig JUndefined;; extractAnswer JUndefined) tub).
Proof.
  assert (∀ r : gmap string JsValue,
            r !! "__typename" = None → r !! "config" = None →
            r !! "answer" = None →
            initialiseTub tub (Some r) normal
            = (extractConfig JUndefined;; extractAnswer JUndefined) tub) as bare.
  { intros r Ht Hc Ha.
    rewrite initialiseTub_generic by (rewrite Ht; discriminate).
    unfold initWithResponse, get_property. by rewrite Hc, Ha. }
  split.
  - intros Ht Hc Ha. rewrite (bare response Ht Hc Ha). split; [|done].
    symmetry. by apply bare.
  - intros mutation this H. apply bare; revert H; run_method;
      destruct (not_string (responseType source)); simpl; try done;
      destruct (is_undefined (_answer source)); simpl; try done;
      by intros [= <- _].
Qed.

(** The envelope of a text variant holding '42', fed to a fresh text
    variant: the answer extracted is [undefined], which [z.string()]
    rejects. *)
Lemma initialiseTub_bare_payload_witness :
  ∃ mutation,
    toResponseMutation answered_tub = Normal mutation answered_tub
    ∧ initialiseTub text_tub (Some mutation) normal
      = Throw (Error "Could not extract answer")
          (set_config (JStr "plain") text_tub).
Proof.
  destruct (initialiseTub_bare_payload text_tub answered_tub ∅) as [_ H].
  eexists. split; [reflexivity|].
  rewrite (H _ _ eq_refl). reflexivity.
Defined.

(** X14: a tub without an answer that is initialised from a
    student-tagged payload still has none: whether the config step
    returned or threw, the teacher fragment, the response and the mutation
    throw 'Answer missing' afterwards (given a [responseType] that passes
    the guard). *)
Theorem student_init_no_answer
    (tub : ResponseAreaTub) (type : string) (response : gmap string JsValue) :
  responseType tub = Some type →
  type ≠ "" →
  answer tub = JUndefined →
  response !! "__typename" = Some (JStr "StudentModularResponse") →
  toTeacherFragment (tub_after (initialiseTub tub (Some response) normal))
  = Throw (Error "Answer missing")
      (tub_after (initialiseTub tub (Some response) normal))
  ∧ toResponse (tub_after (initialiseTub tub (Some response) normal))
    = Throw (Error "Answer missing")
        (tub_after (initialiseTub tub (Some response) normal))
  ∧ toResponseMutation (tub_after (initialiseTub tub (Some response) normal))
    = Throw (Error "Answer missing")
        (tub_after (initialiseTub tub (Some response) normal)).
Proof.
  intros Htype Hne Hdef Htag.
  rewrite (initialiseTub_student _ _ Htag). unfold initWithStudentFragment.
  destruct (extractConfig_shape (get_property "config" response) tub) as [c ->].
  run_method. rewrite Htype, (guard_passes _ Hne). simpl. by rewrite Hdef.
Qed.

Lemma student_init_no_answer_witness :
  initialiseTub text_tub (Some student_payload) normal
  = Normal tt (set_config (JStr "rich") text_tub)
  ∧ toTeacherFragment (set_config (JStr "rich") text_tub)
    = Throw (Error "Answer missing") (set_config (JStr "rich") text_tub).
Proof.
  split; [reflexivity|].
  assert ("TEXT" ≠ "") as Hne by discriminate.
  destruct (student_init_no_answer text_tub "TEXT" student_payload
              eq_refl Hne eq_refl eq_refl) as [H _].
  exact H.
Defined.

(** ** Errors of the dispatcher *)

Lemma extractConfig_thrown (c : JsValue) this e :
  thrown (extractConfig c this) = Some e →
  e = Error "Could not extract config" ∧ tub_after (extractConfig c this) = this.
Proof.
  run_method.
  destruct (configSchema this) as [cs|]; simpl; [|done].
  destruct (safeParse cs c); simpl; [done|]. by intros [= <-].
Qed.

Lemma extractAnswer_thrown (a : JsValue) this e :
  thrown (extractAnswer a this) = Some e →
  (e = Error "Could not extract answer" ∨ e = Error "Not implemented")
  ∧ tub_after (extractAnswer a this) = this.
Proof.
  run_method.
  destruct (answerSchema this) as [ans|]; simpl.
  - destruct (safeParse ans a); simpl; [done|]. intros [= <-]. split; [by left|done].
  - intros [= <-]. split; [by right|done].
Qed.

Lemma extract_both_thrown (c a : JsValue) this e :
  thrown ((extractConfig c;; extractAnswer a) this) = Some e →
  (e = Error "Could not extract config"
   ∧ tub_after ((extractConfig c;; extractAnswer a) this) = this
   ∨ e = Error "Could not extract answer"
   ∨ e = Error "Not implemented")
  ∧ answer (tub_after ((extractConfig c;; extractAnswer a) this)) = answer this.
Proof.
  rewrite tub_after_bind. unfold mbind, Method_bind.
  pose proof (extractConfig_thrown c this) as Hc.
  pose proof (extractConfig_answer c this) as Hca.
  destruct (extractConfig c this) as [[] this'|e' this']; simpl in *.
  - intros H. destruct (extractAnswer_thrown a this' e H) as [He Hsame].
    rewrite Hsame. split; [|done]. right. exact He.
  - intros [= <-]. destruct (Hc e' eq_refl) as [-> ->]. split; [by left|done].
Qed.

(** X15: [initialiseTub] throws nothing but 'Could not extract config',
    'Could not extract answer' and 'Not implemented'; a config error
    leaves the tub exactly as it was, and whichever error is thrown the
    answer is the one held before the call.  Under peek or without a
    response nothing is thrown. *)
Theorem initialiseTub_errors
    (tub : ResponseAreaTub) (response : option (gmap string JsValue))
    (displayMode : DisplayMode) (e : JsError) :
  thrown (initialiseTub tub response displayMode) = Some e →
  (e = Error "Could not extract config"
   ∧ tub_after (initialiseTub tub response displayMode) = tub
   ∨ e = Error "Could not extract answer"
   ∨ e = Error "Not implemented")
  ∧ answer (tub_after (initialiseTub tub response displayMode)) = answer tub
  ∧ displayMode = normal
  ∧ response ≠ None.
Proof.
  unfold initialiseTub.
  destruct response as [response|]; [|done].
  destruct displayMode; simpl; [|done].
  assert (∀ c : Completion unit,
            (thrown c = Some e →
             (e = Error "Could not extract config" ∧ tub_after c = tub
              ∨ e = Error "Could not extract answer"
              ∨ e = Error "Not implemented")
             ∧ answer (tub_after c) = answer tub) →
            thrown c = Some e →
            (e = Error "Could not extract config" ∧ tub_after c = tub
             ∨ e = Error "Could not extract answer"
             ∨ e = Error "Not implemented")
            ∧ answer (tub_after c) = answer tub
            ∧ normal = normal ∧ Some response ≠ None) as wrap.
  { intros c Hc H. destruct (Hc H) as [H1 H2]. done. }
  destruct (_ && _); [apply wrap, extract_both_thrown|].
  destruct (_ && _); [|apply wrap, extract_both_thrown].
  apply wrap. unfold initWithStudentFragment. intros H.
  destruct (extractConfig_thrown _ _ _ H) as [-> Hsame].
  rewrite Hsame. split; [by left|done].
Qed.

(** A teacher fragment with a numeric answer on the text variant: the
    answer error, and the answer untouched. *)
Lemma initialiseTub_errors_witness :
  thrown (initialiseTub text_tub (Some bad_answer_payload) normal)
  = Some (Error "Could not extract answer")
  ∧ answer (tub_after (initialiseTub text_tub (Some bad_answer_payload) normal))
    = answer text_tub.
Proof.
  split; [reflexivity|].
  destruct (initialiseTub_errors text_tub (Some bad_answer_payload) normal
              (Error "Could not extract answer") eq_refl) as (_ & H & _).
  exact H.
Defined.

(** X16: [initWithResponse] returns exactly when the declared
    [configSchema], if any, accepts the payload's config and an
    [answerSchema] is declared and accepts the payload's answer; the
    student path returns exactly when the first of these holds. *)
Theorem init_returns_iff
    (tub : ResponseAreaTub) (payload : gmap string JsValue) :
  (thrown (initWithResponse payload tub) = None
   ↔ (∀ cs, configSchema tub = Some cs →
            safeParse cs (get_property "config" payload) ≠ ParseFailure)
     ∧ ∃ ans a, answerSchema tub = Some ans
                ∧ safeParse ans (get_property "answer" payload) = ParseSuccess a)
  ∧ (thrown (initWithStudentFragment payload tub) = None
     ↔ ∀ cs, configSchema tub = Some cs →
             safeParse cs (get_property "config" payload) ≠ ParseFailure).
Proof.
  split.
  - run_method.
    destruct (configSchema tub) as [cs|]; simpl.
    + destruct (safeParse cs _) as [c|] eqn:Hc; simpl.
      * destruct (answerSchema tub) as [ans|]; simpl.
        -- destruct (safeParse ans _) as [a|] eqn:Ha; simpl.
           ++ split; [|done]. intros _. split; [|by exists ans, a].
              intros cs' [= <-]. by rewrite Hc.
           ++ split; [done|]. intros [_ (ans' & a & [= <-] & H)]. congruence.
        -- split; [done|]. by intros [_ (ans' & a & H & _)].
      * split; [done|]. intros [H _]. by destruct (H cs).
    + destruct (answerSchema tub) as [ans|]; simpl.
      * destruct (safeParse ans _) as [a|] eqn:Ha; simpl.
        -- split; [|done]. intros _. split; [done|]. by exists ans, a.
        -- split; [done|]. intros [_ (ans' & a & [= <-] & H)]. congruence.
      * split; [done|]. by intros [_ (ans' & a & H & _)].
  - run_method.
    destruct (configSchema tub) as [cs|]; simpl; [|done].
    destruct (safeParse cs _) as [c|] eqn:Hc; simpl.
    + split; [|done]. intros _ cs' [= <-]. by rewrite Hc.
    + split; [done|]. intros H. by destruct (H cs).
Qed.

(** The text variant accepts the generic record and, for want of a
    declared answer schema, the schemaless variant does not. *)
Lemma init_returns_iff_witness :
  thrown (initWithResponse generic_payload text_tub) = None
  ∧ thrown (initWithResponse generic_payload schemaless_tub) ≠ None.
Proof.
  destruct (init_returns_iff text_tub generic_payload) as [[_ Hyes] _].
  destruct (init_returns_iff schemaless_tub generic_payload) as [[Hno _] _].
  split.
  - apply Hyes. split.
    + intros cs [= <-]. discriminate.
    + exists z_string, (JStr "42"). split; reflexivity.
  - intros H. destruct (Hno H) as [_ (ans & a & H' & _)]. discriminate H'.
Defined.
